(** * AppLoader of fx-rollback-proto (src/main.go, second version of the file)

    A shallow embedding of the bootstrap controller [AppLoader]: loading the
    loader settings and the application config from the environment
    (envconfig), building the application with fx, falling back to the last
    known good config stored with gob in the file [last_known_good_config],
    and persisting the current config in [Start].

    The dependency-injection container (fx/dig) and the application providers
    are an input of the model: a [Builder] maps the snapshot that the
    providers obtain through [l.Config] (and the application config object
    that its [App] pointer refers to) to the error that [fx.New] records, if
    any. The environment is given as already-coerced values per field, a
    malformed variable being [Malformed]. *)

From Stdlib Require Import ZArith String List.
From stdpp Require Import base gmap strings list.

Import ListNotations.
Local Open Scope Z_scope.

Module Loader.

(** ** Errors *)

(** [errors.New], [errors.Wrap] (pkg/errors), [BadConfigError{Cause}] and
    the framing that the container itself (dig, under fx) puts around the
    error returned by a provider. *)
Inductive error :=
| ErrNew (msg : string)
| ErrWrap (msg : string) (cause : error)
| BadConfigError (Cause : error)
| DigError (ctx : string) (cause : error).

(** [err.Error()] *)
Fixpoint Error (e : error) : string :=
  match e with
  | ErrNew m => m
  | ErrWrap m c => String.append m (String.append ": " (Error c))
  | BadConfigError c => String.append "bad config: " (Error c)
  | DigError ctx c => String.append ctx (String.append ": " (Error c))
  end.

(** [dig.RootCause]: strips the container's own framing. *)
Fixpoint RootCause (e : error) : error :=
  match e with
  | DigError _ c => RootCause c
  | _ => e
  end.

(** [unwrapBadConfigError] *)
Definition unwrapBadConfigError (err : error) : error * bool :=
  match RootCause err with
  | BadConfigError c => (BadConfigError c, true)
  | _ => (err, false)
  end.

(** Whether an error still carries container framing somewhere. *)
Fixpoint has_container_framing (e : error) : bool :=
  match e with
  | ErrNew _ => false
  | ErrWrap _ c => has_container_framing c
  | BadConfigError c => has_container_framing c
  | DigError _ _ => true
  end.

(** ** Data model *)

(** [time.Duration], in nanoseconds. *)
Definition duration := Z.
Definition Second : duration := 1000000000.

Record LoaderConfig := mkLoaderConfig {
  UsesFallbackConfig : bool;
  IgnoreFallbackConfig : bool;
  ConfigError : string;
  StartTimeout : duration;
  StopTimeout : duration
}.

(** The zero value of [LoaderConfig]. *)
Definition zeroLoaderConfig : LoaderConfig :=
  mkLoaderConfig false false "" 0 0.

(** Addresses of heap objects: [App] holds a pointer ([*SomeAppConfig]). *)
Definition loc := positive.

Record Config := mkConfig {
  LoaderCfg : LoaderConfig;
  App : loc
}.

Record EchoHandlerConfig := mkEchoHandlerConfig { ResponseTimeout : duration }.
Record ServerConfig := mkServerConfig { Host : string; Port : Z }.
Record SomeAppConfig := mkSomeAppConfig {
  EchoHandler : EchoHandlerConfig;
  Server : ServerConfig
}.

(** [new(SomeAppConfig)] points to this zero value. *)
Definition zeroSomeAppConfig : SomeAppConfig :=
  mkSomeAppConfig (mkEchoHandlerConfig 0) (mkServerConfig "" 0).

Definition set_ResponseTimeout (d : duration) (a : SomeAppConfig) : SomeAppConfig :=
  mkSomeAppConfig (mkEchoHandlerConfig d) (Server a).
Definition set_Host (h : string) (a : SomeAppConfig) : SomeAppConfig :=
  mkSomeAppConfig (EchoHandler a) (mkServerConfig h (Port (Server a))).
Definition set_Port (p : Z) (a : SomeAppConfig) : SomeAppConfig :=
  mkSomeAppConfig (EchoHandler a) (mkServerConfig (Host (Server a)) p).

(** ** The gob record in [last_known_good_config]

    A gob stream of a struct sends one (field, value) pair per field whose
    value is not the zero value of its type, then an end marker; nested
    structs are always sent, and their zero leaves are omitted likewise.
    We flatten the nesting and number the leaves 0, 1, 2. Decoding into an
    existing value assigns the transmitted fields and leaves the others as
    they are. A stream that is cut short is an [unexpected EOF]. *)
Inductive tok :=
| TStart
| TField (n : nat)
| TInt (z : Z)
| TStr (s : string)
| TEnd.

Definition gob_Encode (a : SomeAppConfig) : list tok :=
  TStart ::
  (if ResponseTimeout (EchoHandler a) =? 0 then []
   else [TField 0; TInt (ResponseTimeout (EchoHandler a))]) ++
  (if String.eqb (Host (Server a)) "" then []
   else [TField 1; TStr (Host (Server a))]) ++
  (if Port (Server a) =? 0 then []
   else [TField 2; TInt (Port (Server a))]) ++
  [TEnd].

Fixpoint gob_decode_fields (ts : list tok) (a : SomeAppConfig)
  : error + SomeAppConfig :=
  match ts with
  | [TEnd] => inr a
  | TField 0 :: TInt d :: rest => gob_decode_fields rest (set_ResponseTimeout d a)
  | TField 1 :: TStr h :: rest => gob_decode_fields rest (set_Host h a)
  | TField 2 :: TInt p :: rest => gob_decode_fields rest (set_Port p a)
  | [] => inl (ErrNew "unexpected EOF")
  | _ => inl (ErrNew "gob: decoding into local type: bad data")
  end.

(** [gob.NewDecoder(f).Decode(target)] *)
Definition gob_Decode (ts : list tok) (target : SomeAppConfig)
  : error + SomeAppConfig :=
  match ts with
  | [] => inl (ErrNew "EOF")
  | TStart :: rest => gob_decode_fields rest target
  | _ => inl (ErrNew "gob: bad data")
  end.

(** ** Environment (envconfig)

    [envconfig.Process] visits every exported field of the struct, in
    declaration order: a variable that is not set leaves the field as it is,
    a set one is coerced to the field's type, and the first coercion failure
    stops the processing with an error. The loader struct has no
    [ignored:"true"] tag, so all five of its fields are read (keys
    LOADER_USESFALLBACKCONFIG, LOADER_IGNORE_FALLBACK_CONFIG,
    LOADER_CONFIGERROR, LOADER_START_TIMEOUT, LOADER_STOP_TIMEOUT). *)
Inductive envvar (A : Type) :=
| Unset
| SetTo (v : A)
| Malformed (msg : string).
Arguments Unset {A}.
Arguments SetTo {A} v.
Arguments Malformed {A} msg.

Definition process_field {A} (v : envvar A) (cur : A) : error + A :=
  match v with
  | Unset => inr cur
  | SetTo x => inr x
  | Malformed m => inl (ErrNew m)
  end.

Record LoaderEnv := mkLoaderEnv {
  env_UsesFallbackConfig : envvar bool;
  env_IgnoreFallbackConfig : envvar bool;
  env_ConfigError : envvar string;
  env_StartTimeout : envvar duration;
  env_StopTimeout : envvar duration
}.

Record AppEnv := mkAppEnv {
  env_ResponseTimeout : envvar duration;
  env_Host : envvar string;
  env_Port : envvar Z
}.

(** [envconfig.Process(loaderConfigPrefix, &l.cfg.LoaderConfig)] *)
Definition envconfig_Process_loader (le : LoaderEnv) (lc : LoaderConfig)
  : error + LoaderConfig :=
  match process_field (env_UsesFallbackConfig le) (UsesFallbackConfig lc) with
  | inl e => inl e | inr u =>
  match process_field (env_IgnoreFallbackConfig le) (IgnoreFallbackConfig lc) with
  | inl e => inl e | inr i =>
  match process_field (env_ConfigError le) (ConfigError lc) with
  | inl e => inl e | inr ce =>
  match process_field (env_StartTimeout le) (StartTimeout lc) with
  | inl e => inl e | inr st =>
  match process_field (env_StopTimeout le) (StopTimeout lc) with
  | inl e => inl e | inr sp => inr (mkLoaderConfig u i ce st sp)
  end end end end end.

(** [envconfig.Process(appConfigPrefix, l.cfg.App)]: the object is filled
    field by field, so on an error it is left partially filled. *)
Definition envconfig_Process_app (ae : AppEnv) (a : SomeAppConfig)
  : SomeAppConfig * option error :=
  match process_field (env_ResponseTimeout ae) (ResponseTimeout (EchoHandler a)) with
  | inl e => (a, Some e) | inr d =>
  let a := set_ResponseTimeout d a in
  match process_field (env_Host ae) (Host (Server a)) with
  | inl e => (a, Some e) | inr h =>
  let a := set_Host h a in
  match process_field (env_Port ae) (Port (Server a)) with
  | inl e => (a, Some e) | inr p => (set_Port p a, None)
  end end end.

(** ** State and effects

    The state of one process: the loader's [l.cfg] (a [Config] value; [Config()]
    hands out copies of it), the heap of application config objects that
    [App] points into, the file [last_known_good_config] ([None] when it
    does not exist), and a trace of the calls to the container and to the
    store. *)
Inductive event :=
| EvBuild (c : Config) (a : SomeAppConfig)
| EvLoad
| EvSave (a : SomeAppConfig).

Record State := mkState {
  cfg : Config;
  heap : gmap loc SomeAppConfig;
  fs : option (list tok);
  trace : list event
}.

Definition set_cfg (c : Config) (s : State) : State :=
  mkState c (heap s) (fs s) (trace s).
Definition set_heap (h : gmap loc SomeAppConfig) (s : State) : State :=
  mkState (cfg s) h (fs s) (trace s).
Definition set_fs (f : option (list tok)) (s : State) : State :=
  mkState (cfg s) (heap s) f (trace s).
Definition log (ev : event) (s : State) : State :=
  mkState (cfg s) (heap s) (fs s) (trace s ++ [ev]).

(** Failing computations over the state: a Go function returning [error]. *)
Definition M (A : Type) := State -> (error + A) * State.

Definition ret {A} (x : A) : M A := fun s => (inr x, s).
Definition throw {A} (e : error) : M A := fun s => (inl e, s).
Definition bindM {A B} (m : M A) (k : A -> M B) : M B :=
  fun s => match m s with
           | (inl e, s') => (inl e, s')
           | (inr x, s') => k x s'
           end.

Notation "'let!' x ':=' c 'in' k" := (bindM c (fun x => k))
  (at level 200, x name, c at level 100, k at level 200).

Definition get_cfg : M Config := fun s => (inr (cfg s), s).
Definition put_cfg (c : Config) : M unit := fun s => (inr tt, set_cfg c s).

(** [errors.Wrap(err, msg)] on the error of a call. *)
Definition wrapErr {A} (msg : string) (m : M A) : M A :=
  fun s => match m s with
           | (inl e, s') => (inl (ErrWrap msg e), s')
           | r => r
           end.

(** Dereferencing [l.cfg.App]; a nil or dangling pointer panics. *)
Definition deref (p : loc) : M SomeAppConfig :=
  fun s => match heap s !! p with
           | Some a => (inr a, s)
           | None => (inl (ErrNew "panic: invalid memory address or nil pointer dereference"), s)
           end.

Definition store (p : loc) (a : SomeAppConfig) : M unit :=
  fun s => (inr tt, set_heap (<[p := a]> (heap s)) s).

(** ** The container

    [fx.New(appOptions)] followed by [app.Err()]: the providers receive the
    snapshot [l.Config()] taken at that moment and, through its [App]
    pointer, the application config object. *)
Definition Builder := Config -> SomeAppConfig -> option error.

Definition fx_New (build : Builder) : M (option error) :=
  let! c := get_cfg in
  let! a := deref (App c) in
  fun s => (inr (build c a), log (EvBuild c a) s).

(** ** AppLoader *)

Definition defaultLoaderStartTimeout : duration := Second * 60.
Definition defaultLoaderStopTimeout : duration := Second * 60.

(** The two [if ... == 0] assignments of [initLoaderConfigFromEnv]. *)
Definition applyLoaderDefaults (lc : LoaderConfig) : LoaderConfig :=
  let lc := if StartTimeout lc =? 0
            then mkLoaderConfig (UsesFallbackConfig lc) (IgnoreFallbackConfig lc)
                   (ConfigError lc) defaultLoaderStartTimeout (StopTimeout lc)
            else lc in
  if StopTimeout lc =? 0
  then mkLoaderConfig (UsesFallbackConfig lc) (IgnoreFallbackConfig lc)
         (ConfigError lc) (StartTimeout lc) defaultLoaderStopTimeout
  else lc.

(** [initLoaderConfigFromEnv] *)
Definition initLoaderConfigFromEnv (le : LoaderEnv) : M unit :=
  let! c := get_cfg in
  match envconfig_Process_loader le (LoaderCfg c) with
  | inl e => throw e
  | inr lc => put_cfg (mkConfig (applyLoaderDefaults lc) (App c))
  end.

(** [loadCurrentConfigFromEnv] *)
Definition loadCurrentConfigFromEnv (ae : AppEnv) : M unit :=
  let! c := get_cfg in
  let! a := deref (App c) in
  match envconfig_Process_app ae a with
  | (a', None) => store (App c) a'
  | (a', Some e) => let! _ := store (App c) a' in throw e
  end.

(** [loadLastKnownGoodConfig]: decodes the file into the object [l.cfg.App]
    points to. *)
Definition loadLastKnownGoodConfig : M unit :=
  let! _ := (fun s => (inr tt, log EvLoad s)) in
  let! c := get_cfg in
  fun s =>
    match fs s with
    | None => (inl (ErrNew "last known good config does not exist"), s)
    | Some ts =>
        match heap s !! App c with
        | None => (inl (ErrNew "panic: invalid memory address or nil pointer dereference"), s)
        | Some target =>
            match gob_Decode ts target with
            | inl e => (inl e, s)
            | inr a => (inr tt, set_heap (<[App c := a]> (heap s)) s)
            end
        end
    end.

(** How the file system behaves for one [saveConfig]: [os.Create] fails
    (the file is left as it was), or the write fails after [n] tokens (the
    file was truncated by [os.Create] and holds what was written). *)
Inductive io_fault :=
| NoFault
| CreateFails (msg : string)
| WriteFailsAfter (n : nat).

(** [saveConfig] *)
Definition saveConfig (flt : io_fault) : M unit :=
  let! c := get_cfg in
  let! a := deref (App c) in
  let! _ := (fun s => (inr tt, log (EvSave a) s)) in
  let ts := gob_Encode a in
  fun s =>
    match flt with
    | NoFault => (inr tt, set_fs (Some ts) s)
    | CreateFails m => (inl (ErrNew m), s)
    | WriteFailsAfter n =>
        if Nat.ltb n (length ts)
        then (inl (ErrNew "short write"), set_fs (Some (firstn n ts)) s)
        else (inr tt, set_fs (Some ts) s)
    end.

(** [Config()] *)
Definition Config_ : M Config := get_cfg.

(** [createApp] *)
Definition createApp (build : Builder) (le : LoaderEnv) (ae : AppEnv)
  (appConfigPtr : loc) : M unit :=
  let! _ := put_cfg (mkConfig zeroLoaderConfig appConfigPtr) in
  let! _ := wrapErr "failed to init loader config" (initLoaderConfigFromEnv le) in
  let! _ := wrapErr "failed to load current config from env" (loadCurrentConfigFromEnv ae) in
  let! err := fx_New build in
  match err with
  | None => ret tt
  | Some err =>
      let '(err, ok) := unwrapBadConfigError err in
      if negb ok then throw (ErrWrap "failed to create app with current config" err) else
      let! c := get_cfg in
      if IgnoreFallbackConfig (LoaderCfg c)
      then throw (ErrNew "failed to create app with current config and fallback config is ignored")
      else
        let configError := err in
        let! _ := wrapErr "failed to fall back to last known good config" loadLastKnownGoodConfig in
        let! c := get_cfg in
        let lc := LoaderCfg c in
        let! _ := put_cfg (mkConfig (mkLoaderConfig true (IgnoreFallbackConfig lc)
                                      (Error configError) (StartTimeout lc) (StopTimeout lc))
                                   (App c)) in
        let! err := fx_New build in
        match err with
        | None => ret tt
        | Some err => throw (ErrWrap "failed to create app with last known good config" err)
        end
  end.

(** [LoadApp] *)
Definition LoadApp (build : Builder) (le : LoaderEnv) (ae : AppEnv)
  (appConfigPtr : loc) : M unit :=
  createApp build le ae appConfigPtr.

(** [Start]: [app.Start] runs on its own goroutine and does not touch the
    loader's state or the file; after the save, [Start] waits for
    [app.Done()] and returns nil. *)
Definition Start (flt : io_fault) : M unit :=
  let! c := get_cfg in
  if negb (UsesFallbackConfig (LoaderCfg c))
  then wrapErr "failed to save current config" (saveConfig flt)
  else ret tt.

(** ** The example application of [ProvideApp]

    The provider of [*echoServer] rejects an empty host and a port outside
    8000..8999 with a [BadConfigError], which fx reports wrapped by the
    container; [net.Listen] is taken to succeed. *)
Definition ProvideApp : Builder :=
  fun _ a =>
    if String.eqb (Host (Server a)) "" then
      Some (DigError "could not build arguments for function"
              (BadConfigError (ErrNew "server host can't be empty")))
    else if (Port (Server a) >? 8999) || (Port (Server a) <? 8000) then
      Some (DigError "could not build arguments for function"
              (BadConfigError (ErrNew "server port should be between 8000 and 8999")))
    else None.

(** [main]: [LoadApp("APP", ProvideApp(), new(SomeAppConfig))], then
    [Start]. The fresh object lives at address 1. *)
Definition appPtr : loc := 1%positive.

Definition initial_state (f : option (list tok)) : State :=
  mkState (mkConfig zeroLoaderConfig appPtr) {[appPtr := zeroSomeAppConfig]} f [].

Definition main (build : Builder) (le : LoaderEnv) (ae : AppEnv) (flt : io_fault)
  : M unit :=
  let! _ := LoadApp build le ae appPtr in Start flt.

(** ** Concrete inputs

    A configuration saved by an earlier successful run (the response
    timeout left at its zero value), an environment that sets none of the
    loader variables, and application environments: a good one, one with
    APP_ECHO_HANDLER_RESPONSE_TIMEOUT=1s and APP_SERVER_PORT=9999 but no
    host, and one whose port does not parse. *)
Definition saved_config : SomeAppConfig :=
  mkSomeAppConfig (mkEchoHandlerConfig 0) (mkServerConfig "localhost" 8080).

Definition env_loader_unset : LoaderEnv := mkLoaderEnv Unset Unset Unset Unset Unset.

Definition env_app_good : AppEnv := mkAppEnv Unset (SetTo "localhost") (SetTo 8080).

Definition env_app_bad : AppEnv := mkAppEnv (SetTo Second) Unset (SetTo 9999).

Definition env_app_malformed : AppEnv :=
  mkAppEnv Unset Unset
    (Malformed "envconfig.Process: assigning APP_SERVER_PORT to Port: converting 'eighty' to type int").

(** A container whose construction fails for a reason other than the
    configuration: [net.Listen] fails inside the [*echoServer] provider and
    dig frames the error. *)
Definition listen_fails : Builder :=
  fun _ _ => Some (DigError "could not build arguments for function"
                      (ErrNew "listen tcp localhost:8080: bind: address already in use")).

(** What one [saveConfig] does to the file, by the behaviour of the file
    system, and whether it reports an error; read off [saveConfig]. *)
Definition save_effect (flt : io_fault) (ts : list tok) (f : option (list tok))
  : option (list tok) :=
  match flt with
  | NoFault => Some ts
  | CreateFails _ => f
  | WriteFailsAfter n => if Nat.ltb n (length ts) then Some (firstn n ts) else Some ts
  end.

Definition save_fails (flt : io_fault) (ts : list tok) : bool :=
  match flt with
  | NoFault => false
  | CreateFails _ => true
  | WriteFailsAfter n => Nat.ltb n (length ts)
  end.

Definition env_app_other : AppEnv := mkAppEnv Unset (SetTo "127.0.0.1") (SetTo 8081).

(** ** The earlier loader

    The same source file also holds an earlier version of the loader (its
    first half). There the loader's settings and the application's fields
    form one struct [AppConfig], every read from the environment or from the
    file allocates a fresh [AppConfig], and [l.cfg] is a pointer that each
    step re-points (to nil when a step fails). [Config()] hands out a copy
    of [*l.cfg]. The error type, the gob tokens, the environment variables
    and the file faults are those above. *)
Module V1.

Record AppConfig := mkAppConfig {
  UsesFallbackConfig : bool;
  ConfigError : string;
  StartTimeout : duration;
  StopTimeout : duration;
  EchoHandler : EchoHandlerConfig;
  Server : ServerConfig
}.

Definition zeroAppConfig : AppConfig :=
  mkAppConfig false "" 0 0 (mkEchoHandlerConfig 0) (mkServerConfig "" 0).

Definition set_UsesFallbackConfig (b : bool) (c : AppConfig) : AppConfig :=
  mkAppConfig b (ConfigError c) (StartTimeout c) (StopTimeout c) (EchoHandler c) (Server c).
Definition set_ConfigError (m : string) (c : AppConfig) : AppConfig :=
  mkAppConfig (UsesFallbackConfig c) m (StartTimeout c) (StopTimeout c) (EchoHandler c) (Server c).
Definition set_StartTimeout (d : duration) (c : AppConfig) : AppConfig :=
  mkAppConfig (UsesFallbackConfig c) (ConfigError c) d (StopTimeout c) (EchoHandler c) (Server c).
Definition set_StopTimeout (d : duration) (c : AppConfig) : AppConfig :=
  mkAppConfig (UsesFallbackConfig c) (ConfigError c) (StartTimeout c) d (EchoHandler c) (Server c).
Definition set_ResponseTimeout (d : duration) (c : AppConfig) : AppConfig :=
  mkAppConfig (UsesFallbackConfig c) (ConfigError c) (StartTimeout c) (StopTimeout c)
    (mkEchoHandlerConfig d) (Server c).
Definition set_Host (h : string) (c : AppConfig) : AppConfig :=
  mkAppConfig (UsesFallbackConfig c) (ConfigError c) (StartTimeout c) (StopTimeout c)
    (EchoHandler c) (mkServerConfig h (Port (Server c))).
Definition set_Port (pt : Z) (c : AppConfig) : AppConfig :=
  mkAppConfig (UsesFallbackConfig c) (ConfigError c) (StartTimeout c) (StopTimeout c)
    (EchoHandler c) (mkServerConfig (Host (Server c)) pt).

(** gob, as above: a field holding its zero value is not transmitted (a
    bool is sent as 1 when true), and decoding sets the fields it reads. *)
Definition gob_Encode (c : AppConfig) : list tok :=
  TStart ::
  (if UsesFallbackConfig c then [TField 0; TInt 1] else []) ++
  (if String.eqb (ConfigError c) "" then [] else [TField 1; TStr (ConfigError c)]) ++
  (if StartTimeout c =? 0 then [] else [TField 2; TInt (StartTimeout c)]) ++
  (if StopTimeout c =? 0 then [] else [TField 3; TInt (StopTimeout c)]) ++
  (if ResponseTimeout (EchoHandler c) =? 0 then []
   else [TField 4; TInt (ResponseTimeout (EchoHandler c))]) ++
  (if String.eqb (Host (Server c)) "" then [] else [TField 5; TStr (Host (Server c))]) ++
  (if Port (Server c) =? 0 then [] else [TField 6; TInt (Port (Server c))]) ++
  [TEnd].

Fixpoint gob_decode_fields (ts : list tok) (c : AppConfig) : error + AppConfig :=
  match ts with
  | [TEnd] => inr c
  | TField 0 :: TInt b :: rest => gob_decode_fields rest (set_UsesFallbackConfig (negb (b =? 0)) c)
  | TField 1 :: TStr m :: rest => gob_decode_fields rest (set_ConfigError m c)
  | TField 2 :: TInt d :: rest => gob_decode_fields rest (set_StartTimeout d c)
  | TField 3 :: TInt d :: rest => gob_decode_fields rest (set_StopTimeout d c)
  | TField 4 :: TInt d :: rest => gob_decode_fields rest (set_ResponseTimeout d c)
  | TField 5 :: TStr h :: rest => gob_decode_fields rest (set_Host h c)
  | TField 6 :: TInt pt :: rest => gob_decode_fields rest (set_Port pt c)
  | [] => inl (ErrNew "unexpected EOF")
  | _ => inl (ErrNew "gob: decoding into local type: bad data")
  end.

Definition gob_Decode (ts : list tok) (target : AppConfig) : error + AppConfig :=
  match ts with
  | [] => inl (ErrNew "EOF")
  | TStart :: rest => gob_decode_fields rest target
  | _ => inl (ErrNew "gob: bad data")
  end.

(** The variables [envconfig.Process("APP", cfg)] reads, in field order:
    APP_USESFALLBACKCONFIG, APP_CONFIGERROR, APP_LOADER_START_TIMEOUT,
    APP_LOADER_STOP_TIMEOUT, APP_ECHO_HANDLER_RESPONSE_TIMEOUT,
    APP_SERVER_HOST, APP_SERVER_PORT. *)
Record AppEnv := mkAppEnv {
  env_UsesFallbackConfig : envvar bool;
  env_ConfigError : envvar string;
  env_StartTimeout : envvar duration;
  env_StopTimeout : envvar duration;
  env_ResponseTimeout : envvar duration;
  env_Host : envvar string;
  env_Port : envvar Z
}.

Definition envconfig_Process (ae : AppEnv) (c : AppConfig) : error + AppConfig :=
  match process_field (env_UsesFallbackConfig ae) (UsesFallbackConfig c) with
  | inl e => inl e | inr u => let c := set_UsesFallbackConfig u c in
  match process_field (env_ConfigError ae) (ConfigError c) with
  | inl e => inl e | inr m => let c := set_ConfigError m c in
  match process_field (env_StartTimeout ae) (StartTimeout c) with
  | inl e => inl e | inr d => let c := set_StartTimeout d c in
  match process_field (env_StopTimeout ae) (StopTimeout c) with
  | inl e => inl e | inr d => let c := set_StopTimeout d c in
  match process_field (env_ResponseTimeout ae) (ResponseTimeout (EchoHandler c)) with
  | inl e => inl e | inr d => let c := set_ResponseTimeout d c in
  match process_field (env_Host ae) (Host (Server c)) with
  | inl e => inl e | inr h => let c := set_Host h c in
  match process_field (env_Port ae) (Port (Server c)) with
  | inl e => inl e | inr pt => inr (set_Port pt c)
  end end end end end end end.

(** [loadAppConfig]: a fresh [AppConfig] filled from the environment; on
    an error the partly filled value is dropped. [loadCurrentConfigFromEnv]
    returns what [loadAppConfig] returns. *)
Definition loadAppConfig (ae : AppEnv) : error + AppConfig :=
  envconfig_Process ae zeroAppConfig.

Definition loadCurrentConfigFromEnv (ae : AppEnv) : error + AppConfig :=
  match loadAppConfig ae with
  | inl e => inl e
  | inr c => inr c
  end.

Inductive event :=
| EvBuild (c : AppConfig)
| EvLoad
| EvSave (c : AppConfig).

(** [l.cfg] ([None] for nil), the file, the trace. *)
Record State := mkState {
  cfg : option AppConfig;
  fs : option (list tok);
  trace : list event
}.

Definition set_cfg (c : option AppConfig) (s : State) : State :=
  mkState c (fs s) (trace s).
Definition set_fs (f : option (list tok)) (s : State) : State :=
  mkState (cfg s) f (trace s).
Definition log (ev : event) (s : State) : State :=
  mkState (cfg s) (fs s) (trace s ++ [ev]).

Definition panic_nil : error :=
  ErrNew "panic: invalid memory address or nil pointer dereference".

(** [loadLastKnownGoodConfig]: [os.Open] (its error is returned as it is),
    then decoding into a fresh [AppConfig]. *)
Definition loadLastKnownGoodConfig (s : State) : (error + AppConfig) * State :=
  let s := log EvLoad s in
  match fs s with
  | None => (inl (ErrNew "open last_known_good_config: no such file or directory"), s)
  | Some ts => (gob_Decode ts zeroAppConfig, s)
  end.

(** [saveConfig(cfg)]: [os.Create] truncates, then the encoding is
    written; the faults are those of the later loader. *)
Definition saveConfig (flt : io_fault) (c : AppConfig) (s : State) : (error + unit) * State :=
  let ts := gob_Encode c in
  let s := log (EvSave c) s in
  match flt with
  | NoFault => (inr tt, set_fs (Some ts) s)
  | CreateFails m => (inl (ErrNew m), s)
  | WriteFailsAfter n =>
      if Nat.ltb n (length ts)
      then (inl (ErrNew "short write"), set_fs (Some (firstn n ts)) s)
      else (inr tt, set_fs (Some ts) s)
  end.

(** [Config()]: a copy of [*l.cfg]. *)
Definition Config_ (s : State) : error + AppConfig :=
  match cfg s with
  | Some c => inr c
  | None => inl panic_nil
  end.

(** [fx.New(appOptions)] and [app.Err()]: the providers receive the
    snapshot [l.Config()] taken at that moment. *)
Definition Builder := AppConfig -> option error.

Definition fx_New (build : Builder) (s : State) : option error * State :=
  match cfg s with
  | Some c => (build c, log (EvBuild c) s)
  | None => (Some panic_nil, s)
  end.

(** [createApp] *)
Definition createApp (build : Builder) (ae : AppEnv) (s : State) : (error + unit) * State :=
  match loadCurrentConfigFromEnv ae with
  | inl e => (inl (ErrWrap "failed to load current config from env" e), set_cfg None s)
  | inr c =>
      let s := set_cfg (Some c) s in
      let '(err, s) := fx_New build s in
      match err with
      | None => (inr tt, s)
      | Some err =>
          let '(err, ok) := unwrapBadConfigError err in
          if negb ok then (inl (ErrWrap "failed to create app with current config" err), s) else
          let configError := err in
          let '(r, s) := loadLastKnownGoodConfig s in
          match r with
          | inl e => (inl (ErrWrap "failed to fall back to last known good config" e), set_cfg None s)
          | inr c =>
              let c := set_ConfigError (Error configError) (set_UsesFallbackConfig true c) in
              let s := set_cfg (Some c) s in
              let '(err, s) := fx_New build s in
              match err with
              | None => (inr tt, s)
              | Some err => (inl (ErrWrap "failed to create app with last known good config" err), s)
              end
          end
      end
  end.

(** [Start]: it saves [*l.cfg] unless [UsesFallbackConfig]. *)
Definition Start (flt : io_fault) (s : State) : (error + unit) * State :=
  match cfg s with
  | None => (inl panic_nil, s)
  | Some c =>
      if negb (UsesFallbackConfig c) then
        match saveConfig flt c s with
        | (inl e, s) => (inl (ErrWrap "failed to save current config" e), s)
        | r => r
        end
      else (inr tt, s)
  end.

(** The example application: the same two checks, on [cfg.Server]. *)
Definition ProvideApp : Builder :=
  fun c =>
    if String.eqb (Host (Server c)) "" then
      Some (DigError "could not build arguments for function"
              (BadConfigError (ErrNew "server host can't be empty")))
    else if (Port (Server c) >? 8999) || (Port (Server c) <? 8000) then
      Some (DigError "could not build arguments for function"
              (BadConfigError (ErrNew "server port should be between 8000 and 8999")))
    else None.

Definition empty_state (f : option (list tok)) : State := mkState None f [].

(** A configuration saved by an earlier run, and an environment with a
    one second response timeout, port 9999 and no host. *)
Definition saved_app_config : AppConfig :=
  mkAppConfig false "" 0 0 (mkEchoHandlerConfig 0) (mkServerConfig "localhost" 8080).

Definition env_bad : AppEnv :=
  mkAppEnv Unset Unset Unset Unset (SetTo Second) Unset (SetTo 9999).

End V1.

(** ** Running the operations *)

Section Runs.

Lemma bind_ok {A B} (m : M A) (k : A -> M B) s x s' :
  m s = (inr x, s') -> bindM m k s = k x s'.
Proof. unfold bindM. intros ->. reflexivity. Qed.

Lemma bind_err {A B} (m : M A) (k : A -> M B) s e s' :
  m s = (inl e, s') -> bindM m k s = (inl e, s').
Proof. unfold bindM. intros ->. reflexivity. Qed.

Lemma wrap_ok {A} msg (m : M A) s x s' :
  m s = (inr x, s') -> wrapErr msg m s = (inr x, s').
Proof. unfold wrapErr. intros ->. reflexivity. Qed.

Lemma wrap_err {A} msg (m : M A) s e s' :
  m s = (inl e, s') -> wrapErr msg m s = (inl (ErrWrap msg e), s').
Proof. unfold wrapErr. intros ->. reflexivity. Qed.

Lemma put_cfg_run c s : put_cfg c s = (inr tt, set_cfg c s).
Proof. reflexivity. Qed.

Lemma get_cfg_run s : get_cfg s = (inr (cfg s), s).
Proof. reflexivity. Qed.

Lemma init_ok le s lc :
  envconfig_Process_loader le (LoaderCfg (cfg s)) = inr lc ->
  initLoaderConfigFromEnv le s
  = (inr tt, set_cfg (mkConfig (applyLoaderDefaults lc) (App (cfg s))) s).
Proof. unfold initLoaderConfigFromEnv, bindM, get_cfg. cbn. intros ->. reflexivity. Qed.

Lemma init_err le s e :
  envconfig_Process_loader le (LoaderCfg (cfg s)) = inl e ->
  initLoaderConfigFromEnv le s = (inl e, s).
Proof. unfold initLoaderConfigFromEnv, bindM, get_cfg. cbn. intros ->. reflexivity. Qed.

Lemma loadCurrent_ok ae s a a' :
  heap s !! App (cfg s) = Some a ->
  envconfig_Process_app ae a = (a', None) ->
  loadCurrentConfigFromEnv ae s
  = (inr tt, set_heap (<[App (cfg s) := a']> (heap s)) s).
Proof.
  unfold loadCurrentConfigFromEnv, bindM, get_cfg, deref. cbn. intros -> ->.
  reflexivity.
Qed.

Lemma loadCurrent_err ae s a a' e :
  heap s !! App (cfg s) = Some a ->
  envconfig_Process_app ae a = (a', Some e) ->
  loadCurrentConfigFromEnv ae s
  = (inl e, set_heap (<[App (cfg s) := a']> (heap s)) s).
Proof.
  unfold loadCurrentConfigFromEnv, bindM, get_cfg, deref. cbn. intros -> ->.
  reflexivity.
Qed.

Lemma fx_New_run b s a :
  heap s !! App (cfg s) = Some a ->
  fx_New b s = (inr (b (cfg s) a), log (EvBuild (cfg s) a) s).
Proof. unfold fx_New, bindM, get_cfg, deref. cbn. intros ->. reflexivity. Qed.

Lemma load_ok s ts a a' :
  fs s = Some ts ->
  heap s !! App (cfg s) = Some a ->
  gob_Decode ts a = inr a' ->
  loadLastKnownGoodConfig s
  = (inr tt, set_heap (<[App (cfg s) := a']> (heap s)) (log EvLoad s)).
Proof.
  unfold loadLastKnownGoodConfig, bindM, get_cfg. cbn. intros -> -> ->.
  reflexivity.
Qed.

(** A failed load leaves everything but the trace as it was. *)
Lemma load_err s :
  (forall ts a, fs s = Some ts -> heap s !! App (cfg s) = Some a ->
                exists e, gob_Decode ts a = inl e) ->
  heap s !! App (cfg s) <> None ->
  exists e, loadLastKnownGoodConfig s = (inl e, log EvLoad s).
Proof.
  unfold loadLastKnownGoodConfig, bindM, get_cfg. cbn. intros Hd Hh.
  destruct (fs s) as [ts|]; [|eauto].
  destruct (heap s !! App (cfg s)) as [a|] eqn:Ha; [|congruence].
  destruct (Hd ts a eq_refl eq_refl) as [e ->]. eauto.
Qed.

Lemma save_run flt s a :
  heap s !! App (cfg s) = Some a ->
  saveConfig flt s =
  let ts := gob_Encode a in
  let s := log (EvSave a) s in
  match flt with
  | NoFault => (inr tt, set_fs (Some ts) s)
  | CreateFails m => (inl (ErrNew m), s)
  | WriteFailsAfter n =>
      if Nat.ltb n (length ts)
      then (inl (ErrNew "short write"), set_fs (Some (firstn n ts)) s)
      else (inr tt, set_fs (Some ts) s)
  end.
Proof. unfold saveConfig, bindM, get_cfg, deref. cbn. intros ->. reflexivity. Qed.

Lemma load_none s :
  fs s = None ->
  loadLastKnownGoodConfig s
  = (inl (ErrNew "last known good config does not exist"), log EvLoad s).
Proof. unfold loadLastKnownGoodConfig, bindM, get_cfg. cbn. intros ->. reflexivity. Qed.

Lemma load_decode_err s ts a e :
  fs s = Some ts ->
  heap s !! App (cfg s) = Some a ->
  gob_Decode ts a = inl e ->
  loadLastKnownGoodConfig s = (inl e, log EvLoad s).
Proof.
  unfold loadLastKnownGoodConfig, bindM, get_cfg. cbn. intros -> -> ->.
  reflexivity.
Qed.

End Runs.

(** [step H] runs the first statement of a [let!] with the run lemma [H]. *)
Tactic Notation "step" tactic3(tac) := erewrite bind_ok; [ | tac ]; cbv beta.
Tactic Notation "step_err" tactic3(tac) := erewrite bind_err; [ | tac ].

(** The statements of [createApp] up to the first [fx.New], when the loader
    settings and the application config parse. *)
Ltac run_prefix Hl Hp Ha :=
  unfold createApp;
  step (apply put_cfg_run);
  step (apply wrap_ok, init_ok; exact Hl);
  step (apply wrap_ok; eapply loadCurrent_ok; [exact Hp | exact Ha]);
  step (apply fx_New_run; cbn; apply lookup_insert_eq);
  cbn [cfg set_heap set_cfg log App].

Lemma applyLoaderDefaults_flags lc :
  UsesFallbackConfig (applyLoaderDefaults lc) = UsesFallbackConfig lc /\
  IgnoreFallbackConfig (applyLoaderDefaults lc) = IgnoreFallbackConfig lc /\
  ConfigError (applyLoaderDefaults lc) = ConfigError lc.
Proof.
  unfold applyLoaderDefaults.
  destruct (StartTimeout lc =? 0), (StopTimeout _ =? 0); cbn; auto.
Qed.

(** The path of [createApp] through a rollback whose load succeeds. *)
Lemma createApp_rollback_run (build : Builder) le ae s p a0 lc a1 err cause ts a2 :
  heap s !! p = Some a0 ->
  envconfig_Process_loader le zeroLoaderConfig = inr lc ->
  IgnoreFallbackConfig lc = false ->
  envconfig_Process_app ae a0 = (a1, None) ->
  build (mkConfig (applyLoaderDefaults lc) p) a1 = Some err ->
  RootCause err = BadConfigError cause ->
  fs s = Some ts ->
  gob_Decode ts a1 = inr a2 ->
  let lc' := applyLoaderDefaults lc in
  let c2 := mkConfig (mkLoaderConfig true false (Error (RootCause err))
                        (StartTimeout lc') (StopTimeout lc')) p in
  createApp build le ae p s =
  (match build c2 a2 with
   | None => inr tt
   | Some e2 => inl (ErrWrap "failed to create app with last known good config" e2)
   end,
   mkState c2 (<[p := a2]> (<[p := a1]> (heap s))) (fs s)
     (trace s ++ [EvBuild (mkConfig lc' p) a1; EvLoad; EvBuild c2 a2])).
Proof.
  intros Hp Hl Hi Ha Hb Hr Hf Hd. cbv zeta. unfold createApp.
  destruct (applyLoaderDefaults_flags lc) as (_ & Hi' & _).
  step (apply put_cfg_run).
  step (apply wrap_ok, init_ok; exact Hl).
  step (apply wrap_ok; eapply loadCurrent_ok; [exact Hp | exact Ha]).
  step (apply fx_New_run; cbn; apply lookup_insert_eq).
  cbn [cfg set_heap set_cfg log App]. rewrite Hb.
  unfold unwrapBadConfigError. rewrite Hr. cbn [negb].
  step (apply get_cfg_run).
  cbn [cfg set_heap set_cfg log LoaderCfg]. rewrite Hi', Hi.
  step (apply wrap_ok; eapply load_ok;
        [exact Hf | cbn; apply lookup_insert_eq | exact Hd]).
  step (apply get_cfg_run).
  step (apply put_cfg_run).
  step (apply fx_New_run; cbn; apply lookup_insert_eq).
  cbn [cfg set_heap set_cfg log LoaderCfg App]. rewrite <- Hr, Hi', Hi.
  destruct (build _ a2);
    unfold throw, ret, log, set_cfg, set_heap; cbn; rewrite <- !app_assoc; reflexivity.
Qed.

(** The path of [createApp] through a rollback whose load fails. *)
Lemma createApp_rollback_load_fails (build : Builder) le ae s p a0 lc a1 err cause :
  heap s !! p = Some a0 ->
  envconfig_Process_loader le zeroLoaderConfig = inr lc ->
  IgnoreFallbackConfig lc = false ->
  envconfig_Process_app ae a0 = (a1, None) ->
  build (mkConfig (applyLoaderDefaults lc) p) a1 = Some err ->
  RootCause err = BadConfigError cause ->
  (fs s = None \/ exists ts e, fs s = Some ts /\ gob_Decode ts a1 = inl e) ->
  exists e st,
    createApp build le ae p s
    = (inl (ErrWrap "failed to fall back to last known good config" e), st) /\
    trace st = trace s ++ [EvBuild (mkConfig (applyLoaderDefaults lc) p) a1; EvLoad] /\
    fs st = fs s.
Proof.
  intros Hp Hl Hi Ha Hb Hr Hload.
  destruct (applyLoaderDefaults_flags lc) as (_ & Hi' & _).
  run_prefix Hl Hp Ha. rewrite Hb.
  unfold unwrapBadConfigError. rewrite Hr. cbn [negb].
  step (apply get_cfg_run).
  cbn [cfg set_heap set_cfg log LoaderCfg]. rewrite Hi', Hi.
  destruct Hload as [Hf | (ts & e & Hf & Hd)].
  - step_err (apply wrap_err, load_none; exact Hf).
    do 2 eexists. split; [reflexivity|]. cbn. rewrite <- app_assoc. auto.
  - step_err (apply wrap_err; eapply load_decode_err;
              [exact Hf | cbn; apply lookup_insert_eq | exact Hd]).
    do 2 eexists. split; [reflexivity|]. cbn. rewrite <- app_assoc. auto.
Qed.

(** Every successful [createApp] ends with a build of the current snapshot,
    on the object [App] points to; the snapshot is either the loader
    settings read from the environment or, after a rollback, the same with
    [UsesFallbackConfig] set and the rejection's text in [ConfigError]. *)
Lemma createApp_success (build : Builder) le ae s p a0 :
  heap s !! p = Some a0 ->
  let '(r, s1) := createApp build le ae p s in
  r = inr tt ->
  exists lc pre a,
    envconfig_Process_loader le zeroLoaderConfig = inr lc /\
    trace s1 = pre ++ [EvBuild (cfg s1) a] /\
    heap s1 !! p = Some a /\ App (cfg s1) = p /\
    (LoaderCfg (cfg s1) = applyLoaderDefaults lc \/
     exists cause,
       LoaderCfg (cfg s1) =
       mkLoaderConfig true false (Error (BadConfigError cause))
         (StartTimeout (applyLoaderDefaults lc)) (StopTimeout (applyLoaderDefaults lc))).
Proof.
  intros Hp.
  destruct (envconfig_Process_loader le zeroLoaderConfig) as [e|lc] eqn:Hl.
  { unfold createApp. step (apply put_cfg_run).
    step_err (apply wrap_err, init_err; exact Hl). cbn. discriminate. }
  destruct (applyLoaderDefaults_flags lc) as (_ & Hi' & _).
  destruct (envconfig_Process_app ae a0) as [a1 [e|]] eqn:Ha.
  { unfold createApp. step (apply put_cfg_run).
    step (apply wrap_ok, init_ok; exact Hl).
    step_err (apply wrap_err; eapply loadCurrent_err; [exact Hp | exact Ha]).
    cbn. discriminate. }
  destruct (build (mkConfig (applyLoaderDefaults lc) p) a1) as [err|] eqn:Hb.
  2:{ run_prefix Hl Hp Ha. rewrite Hb. cbn. intros _.
      exists lc, (trace s), a1. rewrite lookup_insert_eq. auto 6. }
  destruct (RootCause err) as [m|m c|cause|m c] eqn:Hr.
  1,2,4: run_prefix Hl Hp Ha; rewrite Hb; unfold unwrapBadConfigError; rewrite Hr;
         cbn; discriminate.
  destruct (IgnoreFallbackConfig lc) eqn:Hi.
  { run_prefix Hl Hp Ha. rewrite Hb. unfold unwrapBadConfigError. rewrite Hr.
    cbn [negb]. step (apply get_cfg_run).
    cbn [cfg set_heap set_cfg log LoaderCfg]. rewrite Hi'. cbn. discriminate. }
  destruct (fs s) as [ts|] eqn:Hf;
    [destruct (gob_Decode ts a1) as [e|a2] eqn:Hd |].
  - destruct (createApp_rollback_load_fails build le ae s p a0 lc a1 err cause
                Hp Hl Hi Ha Hb Hr (or_intror (ex_intro _ ts (ex_intro _ e (conj Hf Hd)))))
      as (e' & st & -> & _ & _).
    discriminate.
  - rewrite (createApp_rollback_run build le ae s p a0 lc a1 err cause ts a2
               Hp Hl Hi Ha Hb Hr Hf Hd).
    destruct (build _ a2) eqn:Hb2; [discriminate|]. intros _.
    exists lc, (trace s ++ [EvBuild (mkConfig (applyLoaderDefaults lc) p) a1; EvLoad]), a2.
    cbn [cfg heap trace App LoaderCfg].
    rewrite lookup_insert_eq, Hr. split; [reflexivity|].
    split; [rewrite <- app_assoc; reflexivity|]. split; [reflexivity|].
    split; [reflexivity|]. right. eauto.
  - destruct (createApp_rollback_load_fails build le ae s p a0 lc a1 err cause
                Hp Hl Hi Ha Hb Hr (or_introl Hf))
      as (e' & st & -> & _ & _).
    discriminate.
Qed.

(** A gob record cut short anywhere is rejected by the decoder. *)
Lemma gob_decode_fields_has_end n : forall ts a b,
  (length ts <= n)%nat -> gob_decode_fields ts a = inr b -> In TEnd ts.
Proof.
  induction n as [|n IH]; intros ts a b Hlen H.
  - destruct ts; cbn in Hlen, H; [discriminate | lia].
  - destruct ts as [|t ts]; [cbn in H; discriminate|].
    destruct t as [|k|z|str|]; [cbn in H; discriminate| | cbn in H; discriminate
                                | cbn in H; discriminate | left; reflexivity].
    cbn in Hlen.
    destruct k as [|[|[|k]]]; (destruct ts as [|t2 rest]; [cbn in H; discriminate|]);
      destruct t2; cbn in H; try discriminate;
      right; right; refine (IH rest _ _ _ H); cbn in Hlen; lia.
Qed.

Lemma gob_Encode_shape a :
  exists body, gob_Encode a = TStart :: body ++ [TEnd] /\ ~ In TEnd body.
Proof.
  unfold gob_Encode.
  eexists. split.
  - f_equal. rewrite !app_assoc. reflexivity.
  - destruct (ResponseTimeout _ =? 0), (String.eqb _ _), (Port _ =? 0);
      cbn; intuition discriminate.
Qed.

Lemma torn_record_rejected a n target :
  (n < length (gob_Encode a))%nat ->
  exists e, gob_Decode (firstn n (gob_Encode a)) target = inl e.
Proof.
  intros Hn. destruct (gob_Encode_shape a) as (body & Heq & Hnot).
  rewrite Heq in *. destruct n as [|m]; [eexists; reflexivity|].
  cbn [firstn gob_Decode]. cbn [length] in Hn.
  rewrite length_app in Hn. cbn [length] in Hn.
  rewrite firstn_app, (proj2 (Nat.sub_0_le m (length body))) by lia.
  cbn [firstn]. rewrite app_nil_r.
  destruct (gob_decode_fields (firstn m body) target) as [e|b] eqn:Hd; [eauto|].
  exfalso. apply Hnot.
  apply (gob_decode_fields_has_end (length (firstn m body))) in Hd; [|lia].
  rewrite <- (firstn_skipn m body). apply in_or_app. left. exact Hd.
Qed.

(** ** Claims *)

(** C1 (amended). A parse failure of the application config stops the
    bootstrap at once: whatever [IgnoreFallbackConfig] and whatever record
    is persisted, [createApp] fails with the parse error wrapped as
    "failed to load current config from env", never calls the container
    and never loads (nor writes) the fallback record. *)
Theorem parse_failure_fails_without_build_or_load (build : Builder) le ae s p a0 lc a1 e :
  heap s !! p = Some a0 ->
  envconfig_Process_loader le zeroLoaderConfig = inr lc ->
  envconfig_Process_app ae a0 = (a1, Some e) ->
  let '(r, s') := createApp build le ae p s in
  r = inl (ErrWrap "failed to load current config from env" e) /\
  trace s' = trace s /\ fs s' = fs s.
Proof.
  intros Hp Hl Ha. unfold createApp.
  step (apply put_cfg_run).
  step (apply wrap_ok, init_ok; exact Hl).
  step_err (apply wrap_err; eapply loadCurrent_err; [exact Hp | exact Ha]).
  cbn. auto.
Qed.

Lemma parse_failure_fails_without_build_or_load_witness :
  let '(r, s') := createApp ProvideApp env_loader_unset env_app_malformed appPtr
                    (initial_state (Some (gob_Encode saved_config))) in
  r = inl (ErrWrap "failed to load current config from env"
             (ErrNew "envconfig.Process: assigning APP_SERVER_PORT to Port: converting 'eighty' to type int")) /\
  trace s' = trace (initial_state (Some (gob_Encode saved_config))) /\
  fs s' = fs (initial_state (Some (gob_Encode saved_config))).
Proof.
  apply (parse_failure_fails_without_build_or_load ProvideApp env_loader_unset
           env_app_malformed _ appPtr zeroSomeAppConfig zeroLoaderConfig
           zeroSomeAppConfig); reflexivity.
Defined.

(** C1 refuted: with a persisted good record and [IgnoreFallbackConfig]
    unset, a port that does not parse makes [createApp] fail, and the
    record is never loaded. *)
Lemma parse_failure_no_rollback_cex :
  let '(r, s') := createApp ProvideApp env_loader_unset env_app_malformed appPtr
                    (initial_state (Some (gob_Encode saved_config))) in
  (exists e, r = inl e) /\ ~ In EvLoad (trace s').
Proof. vm_compute. split; [eexists; reflexivity | intros []]. Qed.

(** C2. After a [BadConfigError] rejection with [IgnoreFallbackConfig]
    unset and a readable record, [createApp] sets [UsesFallbackConfig],
    records the text of the rejection in [ConfigError], builds once more
    with the loaded config, and stops there: the second build's error is
    the result; the trace has exactly two builds. *)
Theorem rollback_rebuilds_exactly_once (build : Builder) le ae s p a0 lc a1 err cause ts a2 :
  heap s !! p = Some a0 ->
  envconfig_Process_loader le zeroLoaderConfig = inr lc ->
  IgnoreFallbackConfig lc = false ->
  envconfig_Process_app ae a0 = (a1, None) ->
  build (mkConfig (applyLoaderDefaults lc) p) a1 = Some err ->
  RootCause err = BadConfigError cause ->
  fs s = Some ts ->
  gob_Decode ts a1 = inr a2 ->
  let '(r, s') := createApp build le ae p s in
  UsesFallbackConfig (LoaderCfg (cfg s')) = true /\
  ConfigError (LoaderCfg (cfg s')) = Error (BadConfigError cause) /\
  heap s' !! p = Some a2 /\
  trace s' = trace s ++ [EvBuild (mkConfig (applyLoaderDefaults lc) p) a1; EvLoad;
                         EvBuild (cfg s') a2] /\
  (forall e2, build (cfg s') a2 = Some e2 ->
     r = inl (ErrWrap "failed to create app with last known good config" e2)) /\
  (build (cfg s') a2 = None -> r = inr tt).
Proof.
  intros Hp Hl Hi Ha Hb Hr Hf Hd.
  rewrite (createApp_rollback_run build le ae s p a0 lc a1 err cause ts a2
             Hp Hl Hi Ha Hb Hr Hf Hd).
  cbn [cfg heap trace LoaderCfg UsesFallbackConfig ConfigError].
  rewrite Hr, lookup_insert_eq.
  repeat split; auto.
  - intros e2 ->. reflexivity.
  - intros ->. reflexivity.
Qed.

Lemma rollback_rebuilds_exactly_once_witness :
  let '(r, s') := createApp ProvideApp env_loader_unset env_app_bad appPtr
                    (initial_state (Some (gob_Encode saved_config))) in
  UsesFallbackConfig (LoaderCfg (cfg s')) = true /\
  ConfigError (LoaderCfg (cfg s')) = Error (BadConfigError (ErrNew "server host can't be empty")) /\
  heap s' !! appPtr = Some (mkSomeAppConfig (mkEchoHandlerConfig Second)
                              (mkServerConfig "localhost" 8080)) /\
  trace s' = trace (initial_state (Some (gob_Encode saved_config))) ++
             [EvBuild (mkConfig (applyLoaderDefaults zeroLoaderConfig) appPtr)
                (mkSomeAppConfig (mkEchoHandlerConfig Second) (mkServerConfig "" 9999));
              EvLoad;
              EvBuild (cfg s') (mkSomeAppConfig (mkEchoHandlerConfig Second)
                                  (mkServerConfig "localhost" 8080))] /\
  (forall e2, ProvideApp (cfg s') (mkSomeAppConfig (mkEchoHandlerConfig Second)
                                     (mkServerConfig "localhost" 8080)) = Some e2 ->
     r = inl (ErrWrap "failed to create app with last known good config" e2)) /\
  (ProvideApp (cfg s') (mkSomeAppConfig (mkEchoHandlerConfig Second)
                          (mkServerConfig "localhost" 8080)) = None -> r = inr tt).
Proof.
  apply (rollback_rebuilds_exactly_once ProvideApp env_loader_unset env_app_bad _ appPtr
           zeroSomeAppConfig zeroLoaderConfig
           (mkSomeAppConfig (mkEchoHandlerConfig Second) (mkServerConfig "" 9999))
           (DigError "could not build arguments for function"
              (BadConfigError (ErrNew "server host can't be empty")))
           (ErrNew "server host can't be empty")
           (gob_Encode saved_config)
           (mkSomeAppConfig (mkEchoHandlerConfig Second) (mkServerConfig "localhost" 8080)));
    reflexivity.
Defined.

(** C3 (amended). A failed build leads to a load of the fallback record
    only when the root cause, after stripping the container's framing, is a
    [BadConfigError] (and then it does, when [IgnoreFallbackConfig] is
    unset). Any other failure ends [createApp] at once, without touching
    the store, with the container's original error, framing included,
    wrapped as "failed to create app with current config". *)
Theorem build_failure_rollback_only_on_bad_config (build : Builder) le ae s p a0 lc a1 err :
  heap s !! p = Some a0 ->
  envconfig_Process_loader le zeroLoaderConfig = inr lc ->
  envconfig_Process_app ae a0 = (a1, None) ->
  build (mkConfig (applyLoaderDefaults lc) p) a1 = Some err ->
  let '(r, s') := createApp build le ae p s in
  ((forall cause, RootCause err <> BadConfigError cause) ->
     r = inl (ErrWrap "failed to create app with current config" err) /\
     trace s' = trace s ++ [EvBuild (mkConfig (applyLoaderDefaults lc) p) a1] /\
     fs s' = fs s) /\
  (forall cause, RootCause err = BadConfigError cause ->
     IgnoreFallbackConfig lc = false ->
     exists t, trace s' = trace s ++ [EvBuild (mkConfig (applyLoaderDefaults lc) p) a1;
                                      EvLoad] ++ t).
Proof.
  intros Hp Hl Ha Hb.
  destruct (RootCause err) as [m|m c|c|m c] eqn:Hr.
  1,2,4:
    run_prefix Hl Hp Ha; rewrite Hb; unfold unwrapBadConfigError; rewrite Hr;
    cbn; split; [intros _; auto | intros cause Hc; discriminate].
  destruct (IgnoreFallbackConfig lc) eqn:Hi.
  { destruct (createApp build le ae p s) as [r s'].
    split; [intros H; exfalso; exact (H c eq_refl) | intros _ _ [=]]. }
  destruct (fs s) as [ts|] eqn:Hf;
    [destruct (gob_Decode ts a1) as [e|a2] eqn:Hd |].
  - destruct (createApp_rollback_load_fails build le ae s p a0 lc a1 err c
                Hp Hl Hi Ha Hb Hr (or_intror (ex_intro _ ts (ex_intro _ e (conj Hf Hd)))))
      as (e' & st & -> & Ht & _).
    split; [intros H; exfalso; exact (H c eq_refl) |].
    intros cause _ _. exists []. rewrite Ht, app_nil_r. reflexivity.
  - rewrite (createApp_rollback_run build le ae s p a0 lc a1 err c ts a2
               Hp Hl Hi Ha Hb Hr Hf Hd).
    split; [intros H; exfalso; exact (H c eq_refl) |].
    intros cause _ _. cbn [trace]. eexists. reflexivity.
  - destruct (createApp_rollback_load_fails build le ae s p a0 lc a1 err c
                Hp Hl Hi Ha Hb Hr (or_introl Hf))
      as (e' & st & -> & Ht & _).
    split; [intros H; exfalso; exact (H c eq_refl) |].
    intros cause _ _. exists []. rewrite Ht, app_nil_r. reflexivity.
Qed.

Lemma build_failure_rollback_only_on_bad_config_witness :
  let '(r, s') := createApp listen_fails env_loader_unset env_app_good appPtr
                    (initial_state (Some (gob_Encode saved_config))) in
  ((forall cause, RootCause (DigError "could not build arguments for function"
                     (ErrNew "listen tcp localhost:8080: bind: address already in use"))
                  <> BadConfigError cause) ->
     r = inl (ErrWrap "failed to create app with current config"
                (DigError "could not build arguments for function"
                   (ErrNew "listen tcp localhost:8080: bind: address already in use"))) /\
     trace s' = trace (initial_state (Some (gob_Encode saved_config))) ++
                [EvBuild (mkConfig (applyLoaderDefaults zeroLoaderConfig) appPtr) saved_config] /\
     fs s' = fs (initial_state (Some (gob_Encode saved_config)))) /\
  (forall cause, RootCause (DigError "could not build arguments for function"
                    (ErrNew "listen tcp localhost:8080: bind: address already in use"))
                 = BadConfigError cause ->
     IgnoreFallbackConfig zeroLoaderConfig = false ->
     exists t, trace s' = trace (initial_state (Some (gob_Encode saved_config))) ++
                [EvBuild (mkConfig (applyLoaderDefaults zeroLoaderConfig) appPtr) saved_config;
                 EvLoad] ++ t).
Proof.
  apply (build_failure_rollback_only_on_bad_config listen_fails env_loader_unset env_app_good
           _ appPtr zeroSomeAppConfig zeroLoaderConfig saved_config); reflexivity.
Defined.

(** C3 refuted: a failure that is not a [BadConfigError] (a [net.Listen]
    error inside a provider) reaches the caller with the container's framing
    still around it. *)
Lemma other_build_failure_keeps_container_framing_cex :
  let '(r, _) := createApp listen_fails env_loader_unset env_app_good appPtr
                   (initial_state (Some (gob_Encode saved_config))) in
  exists e, r = inl e /\ has_container_framing e = true.
Proof. vm_compute. eexists. split; reflexivity. Qed.

(** C4. With [IgnoreFallbackConfig] set, the fallback record is never
    loaded nor written during [createApp], which calls the container at most
    once; a parse failure or a [BadConfigError] rejection makes it fail. *)
Theorem ignore_fallback_never_loads (build : Builder) le ae s p a0 lc :
  heap s !! p = Some a0 ->
  envconfig_Process_loader le zeroLoaderConfig = inr lc ->
  IgnoreFallbackConfig lc = true ->
  let '(r, s') := createApp build le ae p s in
  (exists t, trace s' = trace s ++ t /\ (length t <= 1)%nat /\ ~ In EvLoad t) /\
  fs s' = fs s /\
  ((exists e, snd (envconfig_Process_app ae a0) = Some e) \/
   (exists err cause,
      snd (envconfig_Process_app ae a0) = None /\
      build (mkConfig (applyLoaderDefaults lc) p) (fst (envconfig_Process_app ae a0)) = Some err /\
      RootCause err = BadConfigError cause) ->
   exists e, r = inl e).
Proof.
  intros Hp Hl Hi.
  destruct (applyLoaderDefaults_flags lc) as (_ & Hi' & _).
  destruct (envconfig_Process_app ae a0) as [a1 [e|]] eqn:Ha.
  - unfold createApp.
    step (apply put_cfg_run).
    step (apply wrap_ok, init_ok; exact Hl).
    step_err (apply wrap_err; eapply loadCurrent_err; [exact Hp | exact Ha]).
    cbn. split; [exists []; rewrite app_nil_r; cbn; auto|]. split; [reflexivity|].
    intros _. eauto.
  - run_prefix Hl Hp Ha.
    destruct (build _ a1) as [err|] eqn:Hb.
    + unfold unwrapBadConfigError.
      destruct (RootCause err) eqn:Hr; cbn [negb].
      3: step (apply get_cfg_run);
         cbn [cfg set_heap set_cfg log LoaderCfg]; rewrite Hi', Hi.
      all: cbn; split; [eexists; split; [reflexivity | cbn; split; [lia | intros [H|[]]; discriminate]] |].
      all: split; [reflexivity | intros _; eauto].
    + cbn. split; [eexists; split; [reflexivity | cbn; split; [lia | intros [H|[]]; discriminate]] |].
      split; [reflexivity|].
      intros [(e & He) | (err & cause & _ & Hb' & _)]; [discriminate | cbn in Hb'; congruence].
Qed.

Lemma ignore_fallback_never_loads_witness :
  let '(r, s') := createApp ProvideApp (mkLoaderEnv Unset (SetTo true) Unset Unset Unset)
                    env_app_bad appPtr (initial_state (Some (gob_Encode saved_config))) in
  (exists t, trace s' = trace (initial_state (Some (gob_Encode saved_config))) ++ t /\
             (length t <= 1)%nat /\ ~ In EvLoad t) /\
  fs s' = fs (initial_state (Some (gob_Encode saved_config))) /\
  ((exists e, snd (envconfig_Process_app env_app_bad zeroSomeAppConfig) = Some e) \/
   (exists err cause,
      snd (envconfig_Process_app env_app_bad zeroSomeAppConfig) = None /\
      ProvideApp (mkConfig (applyLoaderDefaults (mkLoaderConfig false true "" 0 0)) appPtr)
        (fst (envconfig_Process_app env_app_bad zeroSomeAppConfig)) = Some err /\
      RootCause err = BadConfigError cause) ->
   exists e, r = inl e).
Proof.
  apply (ignore_fallback_never_loads ProvideApp (mkLoaderEnv Unset (SetTo true) Unset Unset Unset)
           env_app_bad _ appPtr zeroSomeAppConfig (mkLoaderConfig false true "" 0 0));
    reflexivity.
Defined.

(** C5. After a successful [createApp], [Start] saves the config of the
    last build (the object [App] points to) exactly when
    [UsesFallbackConfig] is false, and then fails exactly when the save
    fails; when [UsesFallbackConfig] is true it changes nothing, so the
    record on disk stays as it was. *)
Theorem start_saves_unless_fallback (build : Builder) le ae s p a0 flt :
  heap s !! p = Some a0 ->
  let '(r1, s1) := createApp build le ae p s in
  r1 = inr tt ->
  exists pre a,
    trace s1 = pre ++ [EvBuild (cfg s1) a] /\
    heap s1 !! App (cfg s1) = Some a /\
    let '(r, s2) := Start flt s1 in
    (UsesFallbackConfig (LoaderCfg (cfg s1)) = false ->
       trace s2 = trace s1 ++ [EvSave a] /\
       fs s2 = save_effect flt (gob_Encode a) (fs s1) /\
       (r = inr tt <-> save_fails flt (gob_Encode a) = false)) /\
    (UsesFallbackConfig (LoaderCfg (cfg s1)) = true -> r = inr tt /\ s2 = s1).
Proof.
  intros Hp.
  pose proof (createApp_success build le ae s p a0 Hp) as Hs.
  destruct (createApp build le ae p s) as [r1 s1].
  intros Hr1. destruct (Hs Hr1) as (lc & pre & a & _ & Ht & Ha & Happ & _).
  exists pre, a. split; [exact Ht|]. rewrite Happ. split; [exact Ha|].
  unfold Start.
  step (apply get_cfg_run).
  destruct (UsesFallbackConfig (LoaderCfg (cfg s1))) eqn:Hu; cbn [negb ret].
  - split; [discriminate|]. intros _. split; reflexivity.
  - rewrite <- Happ in Ha.
    unfold wrapErr. rewrite (save_run flt s1 a Ha).
    destruct flt as [|m|n]; cbn [save_effect save_fails].
    + cbn. split; [|discriminate]. intros _.
      split; [reflexivity|]. split; [reflexivity|]. split; reflexivity.
    + cbn. split; [|discriminate]. intros _.
      split; [reflexivity|]. split; [reflexivity|]. split; discriminate.
    + destruct (Nat.ltb n (length (gob_Encode a))); cbn;
        (split; [|discriminate]); intros _;
        (split; [reflexivity|]); (split; [reflexivity|]); split; congruence.
Qed.

Lemma start_saves_unless_fallback_witness :
  let '(r1, s1) := createApp ProvideApp env_loader_unset env_app_good appPtr
                     (initial_state None) in
  r1 = inr tt ->
  exists pre a,
    trace s1 = pre ++ [EvBuild (cfg s1) a] /\
    heap s1 !! App (cfg s1) = Some a /\
    let '(r, s2) := Start (WriteFailsAfter 2) s1 in
    (UsesFallbackConfig (LoaderCfg (cfg s1)) = false ->
       trace s2 = trace s1 ++ [EvSave a] /\
       fs s2 = save_effect (WriteFailsAfter 2) (gob_Encode a) (fs s1) /\
       (r = inr tt <-> save_fails (WriteFailsAfter 2) (gob_Encode a) = false)) /\
    (UsesFallbackConfig (LoaderCfg (cfg s1)) = true -> r = inr tt /\ s2 = s1).
Proof.
  apply (start_saves_unless_fallback ProvideApp env_loader_unset env_app_good
           (initial_state None) appPtr zeroSomeAppConfig (WriteFailsAfter 2)).
  reflexivity.
Defined.

(** C6 (amended). [saveConfig] is not atomic: [os.Create] truncates the
    file before anything is written. If the file cannot be created the old
    record stays; if the write fails after [n] tokens the file holds just
    those [n] tokens, a torn record that the decoder rejects, so the old
    record is gone; only a complete write leaves a readable record, the new
    one. *)
Theorem save_truncates_before_writing flt s a :
  heap s !! App (cfg s) = Some a ->
  let '(r, s') := saveConfig flt s in
  match flt with
  | NoFault => r = inr tt /\ fs s' = Some (gob_Encode a)
  | CreateFails m => r = inl (ErrNew m) /\ fs s' = fs s
  | WriteFailsAfter n =>
      if Nat.ltb n (length (gob_Encode a))
      then r = inl (ErrNew "short write") /\
           fs s' = Some (firstn n (gob_Encode a)) /\
           forall target, exists e, gob_Decode (firstn n (gob_Encode a)) target = inl e
      else r = inr tt /\ fs s' = Some (gob_Encode a)
  end.
Proof.
  intros Ha. rewrite (save_run flt s a Ha).
  destruct flt as [|m|n]; cbv beta iota zeta.
  - split; reflexivity.
  - split; reflexivity.
  - destruct (Nat.ltb n (length (gob_Encode a))) eqn:Hn; cbv beta iota zeta.
    + split; [reflexivity|]. split; [reflexivity|].
      intros target. apply torn_record_rejected. apply Nat.ltb_lt. exact Hn.
    + split; reflexivity.
Qed.

Lemma save_truncates_before_writing_witness :
  let '(r, s') := saveConfig (WriteFailsAfter 3) (initial_state (Some (gob_Encode saved_config))) in
  match WriteFailsAfter 3 with
  | NoFault => r = inr tt /\ fs s' = Some (gob_Encode zeroSomeAppConfig)
  | CreateFails m => r = inl (ErrNew m) /\ fs s' = fs (initial_state (Some (gob_Encode saved_config)))
  | WriteFailsAfter n =>
      if Nat.ltb n (length (gob_Encode zeroSomeAppConfig))
      then r = inl (ErrNew "short write") /\
           fs s' = Some (firstn n (gob_Encode zeroSomeAppConfig)) /\
           forall target, exists e, gob_Decode (firstn n (gob_Encode zeroSomeAppConfig)) target = inl e
      else r = inr tt /\ fs s' = Some (gob_Encode zeroSomeAppConfig)
  end.
Proof.
  apply (save_truncates_before_writing (WriteFailsAfter 3)
           (initial_state (Some (gob_Encode saved_config))) zeroSomeAppConfig).
  reflexivity.
Defined.

(** C6 refuted: a previous record exists, the current config differs, and
    the write fails after three tokens: [Start] reports the failure, the
    file no longer holds the previous record, and loading it fails. *)
Lemma failed_save_loses_previous_record_cex :
  let s1 := snd (createApp ProvideApp env_loader_unset env_app_other appPtr
                   (initial_state (Some (gob_Encode saved_config)))) in
  let '(r, s2) := Start (WriteFailsAfter 3) s1 in
  (exists e, r = inl e) /\
  fs s2 <> Some (gob_Encode saved_config) /\
  exists e, fst (loadLastKnownGoodConfig s2) = inl e.
Proof.
  vm_compute. split; [eexists; reflexivity|]. split; [discriminate|].
  eexists; reflexivity.
Qed.

(** C7 (amended). A rollback does not give [App] a new object: the last
    known good config is decoded into the object the pointer [App] already
    designates. A snapshot captured by [Config()] for the first build holds
    that same pointer, so after the rollback it sees the loaded fields; only
    its [LoaderConfig] part, a copy, keeps the values of before the
    rollback, while the loader's own settings now have
    [UsesFallbackConfig] set. *)
Theorem rollback_overwrites_shared_app_object (build : Builder) le ae s p a0 lc a1 err cause ts a2 :
  heap s !! p = Some a0 ->
  envconfig_Process_loader le zeroLoaderConfig = inr lc ->
  IgnoreFallbackConfig lc = false ->
  envconfig_Process_app ae a0 = (a1, None) ->
  build (mkConfig (applyLoaderDefaults lc) p) a1 = Some err ->
  RootCause err = BadConfigError cause ->
  fs s = Some ts ->
  gob_Decode ts a1 = inr a2 ->
  let '(r, s') := createApp build le ae p s in
  exists c0,
    trace s' = trace s ++ [EvBuild c0 a1; EvLoad; EvBuild (cfg s') a2] /\
    App c0 = p /\ App (cfg s') = p /\
    heap s' !! App c0 = Some a2 /\
    LoaderCfg c0 = applyLoaderDefaults lc /\
    UsesFallbackConfig (LoaderCfg (cfg s')) = true.
Proof.
  intros Hp Hl Hi Ha Hb Hr Hf Hd.
  rewrite (createApp_rollback_run build le ae s p a0 lc a1 err cause ts a2
             Hp Hl Hi Ha Hb Hr Hf Hd).
  exists (mkConfig (applyLoaderDefaults lc) p).
  cbn [cfg heap trace App LoaderCfg UsesFallbackConfig].
  rewrite lookup_insert_eq.
  repeat split; reflexivity.
Qed.

Lemma rollback_overwrites_shared_app_object_witness :
  let '(r, s') := createApp ProvideApp env_loader_unset env_app_bad appPtr
                    (initial_state (Some (gob_Encode saved_config))) in
  exists c0,
    trace s' = trace (initial_state (Some (gob_Encode saved_config))) ++
               [EvBuild c0 (mkSomeAppConfig (mkEchoHandlerConfig Second) (mkServerConfig "" 9999));
                EvLoad;
                EvBuild (cfg s') (mkSomeAppConfig (mkEchoHandlerConfig Second)
                                    (mkServerConfig "localhost" 8080))] /\
    App c0 = appPtr /\ App (cfg s') = appPtr /\
    heap s' !! App c0 = Some (mkSomeAppConfig (mkEchoHandlerConfig Second)
                                (mkServerConfig "localhost" 8080)) /\
    LoaderCfg c0 = applyLoaderDefaults zeroLoaderConfig /\
    UsesFallbackConfig (LoaderCfg (cfg s')) = true.
Proof.
  apply (rollback_overwrites_shared_app_object ProvideApp env_loader_unset env_app_bad
           (initial_state (Some (gob_Encode saved_config))) appPtr zeroSomeAppConfig
           zeroLoaderConfig
           (mkSomeAppConfig (mkEchoHandlerConfig Second) (mkServerConfig "" 9999))
           (DigError "could not build arguments for function"
              (BadConfigError (ErrNew "server host can't be empty")))
           (ErrNew "server host can't be empty")
           (gob_Encode saved_config)
           (mkSomeAppConfig (mkEchoHandlerConfig Second) (mkServerConfig "localhost" 8080)));
    reflexivity.
Defined.

(** C7 refuted: in the rollback of [main]'s configuration, the object that
    the snapshot of the first build points to is the one [App] still points
    to, and it no longer holds the value that build saw. *)
Lemma rollback_mutates_captured_app_object_cex :
  let '(r, s') := createApp ProvideApp env_loader_unset env_app_bad appPtr
                    (initial_state (Some (gob_Encode saved_config))) in
  r = inr tt /\
  exists c a rest,
    trace s' = EvBuild c a :: rest /\
    App c = App (cfg s') /\
    heap s' !! App c <> Some a.
Proof.
  vm_compute. split; [reflexivity|].
  do 3 eexists. split; [reflexivity|]. split; [reflexivity|].
  intros H. discriminate H.
Qed.

(** C8. A first run of [main] with a good environment saves
    [saved_config], whose response timeout is zero; saving it a second time
    leaves the same record. A second run whose environment sets the
    timeout to one second and an invalid port, without a host, rolls back,
    and the loaded object is not [saved_config]: the decoder fills only the
    fields present in the record, so the zero timeout is not restored and
    the rejected one second stays. *)
Theorem load_merges_into_current_config :
  let s1 := snd (main ProvideApp env_loader_unset env_app_good NoFault (initial_state None)) in
  heap s1 !! appPtr = Some saved_config /\
  fs s1 = Some (gob_Encode saved_config) /\
  fs (snd (Start NoFault s1)) = fs s1 /\
  let '(r, s2) := createApp ProvideApp env_loader_unset env_app_bad appPtr
                    (initial_state (fs s1)) in
  r = inr tt /\
  UsesFallbackConfig (LoaderCfg (cfg s2)) = true /\
  heap s2 !! appPtr = Some (mkSomeAppConfig (mkEchoHandlerConfig Second)
                              (mkServerConfig "localhost" 8080)) /\
  heap s2 !! appPtr <> Some saved_config.
Proof.
  vm_compute.
  split; [reflexivity|]. split; [reflexivity|]. split; [reflexivity|].
  split; [reflexivity|]. split; [reflexivity|]. split; [reflexivity|].
  intros H. discriminate H.
Qed.

(** The timeouts read by [envconfig.Process]: the variable's value when it
    is set, the previous value otherwise. *)
Lemma process_loader_timeouts le lc0 lc :
  envconfig_Process_loader le lc0 = inr lc ->
  StartTimeout lc = match env_StartTimeout le with
                    | SetTo d => d | _ => StartTimeout lc0 end /\
  StopTimeout lc = match env_StopTimeout le with
                   | SetTo d => d | _ => StopTimeout lc0 end.
Proof.
  unfold envconfig_Process_loader.
  destruct le as [u i ce st sp]; cbn [env_StartTimeout env_StopTimeout
    env_UsesFallbackConfig env_IgnoreFallbackConfig env_ConfigError].
  destruct u, i, ce, st, sp; cbn; intros H; try discriminate H;
    injection H as <-; cbn; split; reflexivity.
Qed.

Lemma applyLoaderDefaults_timeouts lc :
  StartTimeout (applyLoaderDefaults lc) =
    (if StartTimeout lc =? 0 then defaultLoaderStartTimeout else StartTimeout lc) /\
  StopTimeout (applyLoaderDefaults lc) =
    (if StopTimeout lc =? 0 then defaultLoaderStopTimeout else StopTimeout lc).
Proof.
  unfold applyLoaderDefaults.
  destruct (StartTimeout lc =? 0); cbn; destruct (StopTimeout lc =? 0); cbn;
    split; reflexivity.
Qed.

(** C9 (amended). [initLoaderConfigFromEnv], run as [createApp] runs it
    (on a zero [LoaderConfig]) and with every loader variable well formed:
    a timeout whose variable is unset, or set to zero, becomes 60 seconds;
    a timeout set to a nonzero value is taken as given. *)
Theorem timeouts_default_when_unset_or_zero le s lc :
  LoaderCfg (cfg s) = zeroLoaderConfig ->
  envconfig_Process_loader le zeroLoaderConfig = inr lc ->
  let '(r, s') := initLoaderConfigFromEnv le s in
  r = inr tt /\
  (env_StartTimeout le = Unset -> StartTimeout (LoaderCfg (cfg s')) = Second * 60) /\
  (forall d, env_StartTimeout le = SetTo d ->
     StartTimeout (LoaderCfg (cfg s')) = if d =? 0 then Second * 60 else d) /\
  (env_StopTimeout le = Unset -> StopTimeout (LoaderCfg (cfg s')) = Second * 60) /\
  (forall d, env_StopTimeout le = SetTo d ->
     StopTimeout (LoaderCfg (cfg s')) = if d =? 0 then Second * 60 else d).
Proof.
  intros Hz Hl. rewrite <- Hz in Hl.
  rewrite (init_ok le s lc Hl). cbn [cfg set_cfg LoaderCfg].
  destruct (process_loader_timeouts le _ lc Hl) as [Hst Hsp].
  destruct (applyLoaderDefaults_timeouts lc) as [Ast Asp].
  rewrite Ast, Asp, Hst, Hsp, Hz.
  split; [reflexivity|].
  split; [intros ->; reflexivity|].
  split; [intros d ->; reflexivity|].
  split; [intros ->; reflexivity|].
  intros d ->; reflexivity.
Qed.

Lemma timeouts_default_when_unset_or_zero_witness :
  let '(r, s') := initLoaderConfigFromEnv
                    (mkLoaderEnv Unset Unset Unset (SetTo 0) (SetTo (Second * 5)))
                    (initial_state None) in
  r = inr tt /\
  (env_StartTimeout (mkLoaderEnv Unset Unset Unset (SetTo 0) (SetTo (Second * 5))) = Unset ->
     StartTimeout (LoaderCfg (cfg s')) = Second * 60) /\
  (forall d, env_StartTimeout (mkLoaderEnv Unset Unset Unset (SetTo 0) (SetTo (Second * 5))) = SetTo d ->
     StartTimeout (LoaderCfg (cfg s')) = if d =? 0 then Second * 60 else d) /\
  (env_StopTimeout (mkLoaderEnv Unset Unset Unset (SetTo 0) (SetTo (Second * 5))) = Unset ->
     StopTimeout (LoaderCfg (cfg s')) = Second * 60) /\
  (forall d, env_StopTimeout (mkLoaderEnv Unset Unset Unset (SetTo 0) (SetTo (Second * 5))) = SetTo d ->
     StopTimeout (LoaderCfg (cfg s')) = if d =? 0 then Second * 60 else d).
Proof.
  apply (timeouts_default_when_unset_or_zero
           (mkLoaderEnv Unset Unset Unset (SetTo 0) (SetTo (Second * 5)))
           (initial_state None) (mkLoaderConfig false false "" 0 (Second * 5)));
    reflexivity.
Defined.

(** C9 refuted: LOADER_START_TIMEOUT set to 0 is not taken as given, the
    loader runs with a start timeout of 60 seconds. *)
Lemma zero_start_timeout_replaced_cex :
  let le := mkLoaderEnv Unset Unset Unset (SetTo 0) Unset in
  let '(r, s') := initLoaderConfigFromEnv le (initial_state None) in
  env_StartTimeout le = SetTo 0 /\
  r = inr tt /\
  StartTimeout (LoaderCfg (cfg s')) <> 0.
Proof.
  vm_compute. split; [reflexivity|]. split; [reflexivity|].
  intros H. discriminate H.
Qed.

Lemma process_loader_flags_unset le lc0 lc :
  env_UsesFallbackConfig le = Unset -> env_ConfigError le = Unset ->
  envconfig_Process_loader le lc0 = inr lc ->
  UsesFallbackConfig lc = UsesFallbackConfig lc0 /\ ConfigError lc = ConfigError lc0.
Proof.
  destruct le as [u i ce st sp]; cbn [env_UsesFallbackConfig env_ConfigError].
  intros -> ->. unfold envconfig_Process_loader; cbn [env_IgnoreFallbackConfig
    env_StartTimeout env_StopTimeout process_field].
  destruct i, st, sp; cbn; intros H; try discriminate H;
    injection H as <-; cbn; split; reflexivity.
Qed.

(** When the environment sets neither LOADER_USESFALLBACKCONFIG nor
    LOADER_CONFIGERROR, a successful [LoadApp] leaves [UsesFallbackConfig]
    set exactly when [ConfigError] is nonempty, and then [ConfigError] is
    the text of a [BadConfigError]. *)
Lemma loader_flags_consistent_without_env (build : Builder) le ae s p a0 :
  env_UsesFallbackConfig le = Unset -> env_ConfigError le = Unset ->
  heap s !! p = Some a0 ->
  let '(r, s') := LoadApp build le ae p s in
  r = inr tt ->
  (UsesFallbackConfig (LoaderCfg (cfg s')) = true <-> ConfigError (LoaderCfg (cfg s')) <> "") /\
  (UsesFallbackConfig (LoaderCfg (cfg s')) = true ->
     exists cause, ConfigError (LoaderCfg (cfg s')) = String.append "bad config: " (Error cause)).
Proof.
  intros Hu Hc Hp. unfold LoadApp.
  pose proof (createApp_success build le ae s p a0 Hp) as Hs.
  destruct (createApp build le ae p s) as [r s'].
  intros Hr. destruct (Hs Hr) as (lc & _ & _ & Hl & _ & _ & _ & [Hc' | (cause & Hc')]);
    rewrite Hc'.
  - destruct (process_loader_flags_unset le _ lc Hu Hc Hl) as [Fu Fc].
    destruct (applyLoaderDefaults_flags lc) as (Au & _ & Ac).
    rewrite Au, Ac, Fu, Fc. cbn. split; [|discriminate].
    split; [discriminate|]. intros H; exfalso; apply H; reflexivity.
  - cbn [UsesFallbackConfig ConfigError Error].
    split; [|intros _; exists cause; reflexivity].
    split; [intros _ H; destruct (Error cause); discriminate H | reflexivity].
Qed.

(** C10. The loader variables LOADER_CONFIGERROR and
    LOADER_USESFALLBACKCONFIG are read like the others: with a valid
    application environment [LoadApp] succeeds without a rollback, yet
    the snapshot has a nonempty [ConfigError] while [UsesFallbackConfig]
    is false, or [UsesFallbackConfig] true with an empty [ConfigError]. *)
Theorem loader_flags_read_from_env :
  (let '(r, s') := LoadApp ProvideApp (mkLoaderEnv Unset Unset (SetTo "maintenance") Unset Unset)
                     env_app_good appPtr (initial_state None) in
   r = inr tt /\ fst (Config_ s') = inr (cfg s') /\
   UsesFallbackConfig (LoaderCfg (cfg s')) = false /\
   ConfigError (LoaderCfg (cfg s')) = "maintenance") /\
  (let '(r, s') := LoadApp ProvideApp (mkLoaderEnv (SetTo true) Unset Unset Unset Unset)
                     env_app_good appPtr (initial_state None) in
   r = inr tt /\ fst (Config_ s') = inr (cfg s') /\
   UsesFallbackConfig (LoaderCfg (cfg s')) = true /\
   ConfigError (LoaderCfg (cfg s')) = "").
Proof.
  vm_compute. split; repeat split.
Qed.

(** ** Further properties of the loader *)

(** Decoding a record into an object: each field present in the record
    (nonzero when it was saved) overwrites the object's field, every other
    field keeps the object's value. Into the zero object, the decoded value
    is the saved one. *)
Theorem gob_decode_merges a t :
  gob_Decode (gob_Encode a) t =
  inr (mkSomeAppConfig
         (mkEchoHandlerConfig
            (if ResponseTimeout (EchoHandler a) =? 0
             then ResponseTimeout (EchoHandler t) else ResponseTimeout (EchoHandler a)))
         (mkServerConfig
            (if String.eqb (Host (Server a)) "" then Host (Server t) else Host (Server a))
            (if Port (Server a) =? 0 then Port (Server t) else Port (Server a)))) /\
  gob_Decode (gob_Encode a) zeroSomeAppConfig = inr a.
Proof.
  destruct a as [[rt] [h pt]], t as [[rt'] [h' pt']].
  unfold gob_Encode; cbn [EchoHandler Server ResponseTimeout Host Port].
  destruct (Z.eqb_spec rt 0), (String.eqb_spec h ""), (Z.eqb_spec pt 0);
    subst; split; reflexivity.
Qed.

Lemma gob_decode_self a : gob_Decode (gob_Encode a) a = inr a.
Proof.
  destruct a as [[rt] [h pt]].
  unfold gob_Encode; cbn [EchoHandler Server ResponseTimeout Host Port].
  destruct (Z.eqb_spec rt 0), (String.eqb_spec h ""), (Z.eqb_spec pt 0);
    subst; reflexivity.
Qed.

(** A complete save followed by a load in the same process succeeds and
    leaves the object [App] points to as it was. *)
Theorem save_then_load_keeps_object s a :
  heap s !! App (cfg s) = Some a ->
  let '(r1, s1) := saveConfig NoFault s in
  let '(r2, s2) := loadLastKnownGoodConfig s1 in
  r1 = inr tt /\ r2 = inr tt /\ heap s2 = heap s /\ cfg s2 = cfg s /\
  fs s2 = Some (gob_Encode a) /\ trace s2 = trace s ++ [EvSave a; EvLoad].
Proof.
  intros Ha. rewrite (save_run NoFault s a Ha). cbv beta iota zeta.
  rewrite (load_ok _ (gob_Encode a) a a); [| reflexivity | exact Ha | apply gob_decode_self].
  cbn [heap cfg fs trace set_heap set_fs log].
  rewrite insert_id by exact Ha. rewrite <- app_assoc.
  repeat split; reflexivity.
Qed.

Lemma save_then_load_keeps_object_witness :
  let '(r1, s1) := saveConfig NoFault (initial_state None) in
  let '(r2, s2) := loadLastKnownGoodConfig s1 in
  r1 = inr tt /\ r2 = inr tt /\ heap s2 = heap (initial_state None) /\
  cfg s2 = cfg (initial_state None) /\
  fs s2 = Some (gob_Encode zeroSomeAppConfig) /\
  trace s2 = trace (initial_state None) ++ [EvSave zeroSomeAppConfig; EvLoad].
Proof.
  apply (save_then_load_keeps_object (initial_state None) zeroSomeAppConfig).
  reflexivity.
Defined.


(** A malformed LOADER_* variable makes [createApp] fail with
    "failed to init loader config" before anything else happens: no build,
    no load, the object and the file untouched. *)
Theorem malformed_loader_env_fails_first (build : Builder) le ae s p e :
  envconfig_Process_loader le zeroLoaderConfig = inl e ->
  let '(r, s') := createApp build le ae p s in
  r = inl (ErrWrap "failed to init loader config" e) /\
  heap s' = heap s /\ fs s' = fs s /\ trace s' = trace s.
Proof.
  intros Hl. unfold createApp.
  step (apply put_cfg_run).
  step_err (apply wrap_err, init_err; exact Hl).
  cbn. repeat split; reflexivity.
Qed.

Lemma malformed_loader_env_fails_first_witness :
  envconfig_Process_loader (mkLoaderEnv Unset Unset Unset (Malformed "bad duration") Unset)
    zeroLoaderConfig = inl (ErrNew "bad duration") /\
  let '(r, s') := createApp ProvideApp (mkLoaderEnv Unset Unset Unset (Malformed "bad duration") Unset)
                    env_app_good appPtr (initial_state None) in
  r = inl (ErrWrap "failed to init loader config" (ErrNew "bad duration")) /\
  heap s' = heap (initial_state None) /\ fs s' = fs (initial_state None) /\
  trace s' = trace (initial_state None).
Proof.
  split; [reflexivity|].
  apply (malformed_loader_env_fails_first ProvideApp
           (mkLoaderEnv Unset Unset Unset (Malformed "bad duration") Unset)
           env_app_good (initial_state None) appPtr (ErrNew "bad duration")).
  reflexivity.
Defined.

(** When the rollback cannot load a record (none saved, or one that does
    not decode), [createApp] fails with "failed to fall back to last known
    good config" after the single load attempt: no second build and the
    file untouched. *)
Theorem fallback_load_failure_is_final (build : Builder) le ae s p a0 lc a1 err cause :
  heap s !! p = Some a0 ->
  envconfig_Process_loader le zeroLoaderConfig = inr lc ->
  IgnoreFallbackConfig lc = false ->
  envconfig_Process_app ae a0 = (a1, None) ->
  build (mkConfig (applyLoaderDefaults lc) p) a1 = Some err ->
  RootCause err = BadConfigError cause ->
  (fs s = None \/ exists ts e, fs s = Some ts /\ gob_Decode ts a1 = inl e) ->
  let '(r, s') := createApp build le ae p s in
  (exists e, r = inl (ErrWrap "failed to fall back to last known good config" e)) /\
  trace s' = trace s ++ [EvBuild (mkConfig (applyLoaderDefaults lc) p) a1; EvLoad] /\
  fs s' = fs s.
Proof.
  intros Hp Hl Hi Ha Hb Hr Hload.
  destruct (createApp_rollback_load_fails build le ae s p a0 lc a1 err cause
              Hp Hl Hi Ha Hb Hr Hload) as (e & st & -> & Ht & Hf).
  eauto.
Qed.

Lemma fallback_load_failure_is_final_witness :
  let '(r, s') := createApp ProvideApp env_loader_unset env_app_bad appPtr (initial_state None) in
  (exists e, r = inl (ErrWrap "failed to fall back to last known good config" e)) /\
  trace s' = trace (initial_state None) ++
             [EvBuild (mkConfig (applyLoaderDefaults zeroLoaderConfig) appPtr)
                (mkSomeAppConfig (mkEchoHandlerConfig Second) (mkServerConfig "" 9999));
              EvLoad] /\
  fs s' = fs (initial_state None).
Proof.
  apply (fallback_load_failure_is_final ProvideApp env_loader_unset env_app_bad
           (initial_state None) appPtr zeroSomeAppConfig zeroLoaderConfig
           (mkSomeAppConfig (mkEchoHandlerConfig Second) (mkServerConfig "" 9999))
           (DigError "could not build arguments for function"
              (BadConfigError (ErrNew "server host can't be empty")))
           (ErrNew "server host can't be empty"));
    try reflexivity.
  left. reflexivity.
Defined.






(** ** Properties of the earlier loader *)
Module V1Facts.
Import V1.

Lemma v1_decode_encode_zero c : gob_Decode (gob_Encode c) zeroAppConfig = inr c.
Proof.
  destruct c as [u m st sp [rt] [h pt]].
  unfold gob_Encode; cbn [UsesFallbackConfig ConfigError StartTimeout StopTimeout
    EchoHandler Server ResponseTimeout Host Port].
  destruct u, (String.eqb_spec m ""), (Z.eqb_spec st 0), (Z.eqb_spec sp 0),
    (Z.eqb_spec rt 0), (String.eqb_spec h ""), (Z.eqb_spec pt 0);
    subst; reflexivity.
Qed.

(** In the earlier loader, a record written by a successful [Start] loads
    back, in any later process, as exactly the configuration that was
    running: the decoder fills a fresh [AppConfig]. *)
Theorem v1_saved_record_loads_back flt s c s' :
  cfg s = Some c -> UsesFallbackConfig c = false ->
  let '(r, s1) := Start flt s in
  r = inr tt ->
  fst (loadLastKnownGoodConfig (set_fs (fs s1) s')) = inr c.
Proof.
  intros Hc Hu. unfold Start. rewrite Hc, Hu. cbn [negb].
  unfold saveConfig; destruct flt as [|m|n]; cbv beta iota zeta.
  - intros _. cbn -[gob_Encode gob_Decode]. apply v1_decode_encode_zero.
  - intros H; discriminate H.
  - destruct (Nat.ltb n (length (gob_Encode c))); cbv beta iota.
    + intros H; discriminate H.
    + intros _. cbn -[gob_Encode gob_Decode]. apply v1_decode_encode_zero.
Qed.

Lemma v1_saved_record_loads_back_witness :
  let '(r, s1) := Start NoFault (mkState (Some saved_app_config) None []) in
  r = inr tt ->
  fst (loadLastKnownGoodConfig (set_fs (fs s1) (empty_state None))) = inr saved_app_config.
Proof.
  apply (v1_saved_record_loads_back NoFault (mkState (Some saved_app_config) None [])
           saved_app_config (empty_state None)); reflexivity.
Defined.

(** In the earlier loader, a rollback makes [l.cfg] the saved record
    exactly, with [UsesFallbackConfig] set and the rejection's text in
    [ConfigError]: nothing of the rejected configuration remains. The app
    is rebuilt once on it, and the run succeeds exactly when that build
    does. *)
Theorem v1_rollback_restores_saved_config (build : Builder) ae s c0 err cause c :
  loadAppConfig ae = inr c0 ->
  build c0 = Some err ->
  RootCause err = BadConfigError cause ->
  fs s = Some (gob_Encode c) ->
  let c' := mkAppConfig true (Error (BadConfigError cause)) (StartTimeout c) (StopTimeout c)
              (EchoHandler c) (Server c) in
  let '(r, s') := createApp build ae s in
  cfg s' = Some c' /\ fs s' = fs s /\
  trace s' = trace s ++ [EvBuild c0; EvLoad; EvBuild c'] /\
  (r = inr tt <-> build c' = None).
Proof.
  intros Hl Hb Hr Hf. cbv zeta.
  unfold createApp, loadCurrentConfigFromEnv. rewrite Hl.
  unfold fx_New at 1. cbn [cfg set_cfg]. rewrite Hb.
  unfold unwrapBadConfigError. rewrite Hr. cbn [negb].
  unfold loadLastKnownGoodConfig. cbn [fs log set_cfg]. rewrite Hf.
  rewrite v1_decode_encode_zero.
  unfold fx_New. cbn [cfg set_cfg log fs trace].
  unfold set_ConfigError, set_UsesFallbackConfig.
  cbn [UsesFallbackConfig ConfigError StartTimeout StopTimeout EchoHandler Server].
  destruct (build (mkAppConfig true (Error (BadConfigError cause)) (StartTimeout c)
                  (StopTimeout c) (EchoHandler c) (Server c))) as [e2|] eqn:Hb2;
    cbn [cfg fs trace log set_cfg].
  - rewrite <- !app_assoc. split; [reflexivity|]. split; [rewrite ?Hf; reflexivity|].
    split; [reflexivity|]. split; intros H; discriminate H.
  - rewrite <- !app_assoc. split; [reflexivity|]. split; [rewrite ?Hf; reflexivity|].
    split; [reflexivity|]. split; reflexivity.
Qed.

Lemma v1_rollback_restores_saved_config_witness :
  let c' := mkAppConfig true (Error (BadConfigError (ErrNew "server host can't be empty")))
              (StartTimeout saved_app_config) (StopTimeout saved_app_config)
              (EchoHandler saved_app_config) (Server saved_app_config) in
  let '(r, s') := createApp ProvideApp env_bad (empty_state (Some (gob_Encode saved_app_config))) in
  cfg s' = Some c' /\ fs s' = fs (empty_state (Some (gob_Encode saved_app_config))) /\
  trace s' = trace (empty_state (Some (gob_Encode saved_app_config))) ++
             [EvBuild (mkAppConfig false "" 0 0 (mkEchoHandlerConfig Second) (mkServerConfig "" 9999));
              EvLoad; EvBuild c'] /\
  (r = inr tt <-> ProvideApp c' = None).
Proof.
  apply (v1_rollback_restores_saved_config ProvideApp env_bad
           (empty_state (Some (gob_Encode saved_app_config)))
           (mkAppConfig false "" 0 0 (mkEchoHandlerConfig Second) (mkServerConfig "" 9999))
           (DigError "could not build arguments for function"
              (BadConfigError (ErrNew "server host can't be empty")))
           (ErrNew "server host can't be empty") saved_app_config); reflexivity.
Defined.

End V1Facts.

End Loader.
